(** * bucketbot: the conversation engine of [bucketbot.py]

    A shallow embedding of the Telegram bot in [src/bucketbot.py]: the
    handlers [start], [handle_type_selection], [handle_content],
    [help_command] and [cancel], the submission client [post_entry], and the
    dispatch that [main] configures (one [ConversationHandler] with the entry
    point [/start], the single state [WAITING_FOR_CONTENT] and the fallback
    [/cancel], followed by the [/help] command handler).

    Conventions.
    - Python [str] is [string]: the text as bytes (UTF-8 for the pictographs
      in the bot's messages).  [strip] and [lower] act on the ASCII range;
      the labels, the machine values and the texts typed below are ASCII.
    - Python [int] is [Z]; [str(n)] is its decimal writing.
    - [context.user_data] is a [gmap string string]; [dict.get] is lookup,
      [dict.clear] gives the empty map.
    - A handler is a computation in the state monad [Bot] over [World]: the
      session's [user_data], the messages sent so far and the HTTP requests
      made so far.  The network is a variable of the section: it answers a
      request either with a response or by raising. *)

From Stdlib Require Import ZArith Ascii String DecimalString List.
From stdpp Require Import base option gmap strings list fin_maps.

Local Open Scope Z_scope.

(** ** Python strings *)

Module Py.

Definition LF : string := String (ascii_of_nat 10) EmptyString.

(** [str.isspace] on one ASCII character: TAB, LF, VT, FF, CR, the four
    separators FS, GS, RS, US, and the space. *)
Definition isspace (c : ascii) : bool :=
  let n := nat_of_ascii c in
  ((9 <=? n)%nat && (n <=? 13)%nat) || ((28 <=? n)%nat && (n <=? 32)%nat).

Fixpoint lstrip (s : string) : string :=
  match s with
  | EmptyString => EmptyString
  | String c r => if isspace c then lstrip r else s
  end.

Fixpoint rstrip (s : string) : string :=
  match s with
  | EmptyString => EmptyString
  | String c r =>
      match rstrip r with
      | EmptyString => if isspace c then EmptyString else String c EmptyString
      | r' => String c r'
      end
  end.

(** [s.strip()] *)
Definition strip (s : string) : string := rstrip (lstrip s).

Definition lower_char (c : ascii) : ascii :=
  let n := nat_of_ascii c in
  if ((65 <=? n)%nat && (n <=? 90)%nat) then ascii_of_nat (n + 32) else c.

(** [s.lower()] *)
Fixpoint lower (s : string) : string :=
  match s with
  | EmptyString => EmptyString
  | String c r => String (lower_char c) (lower r)
  end.

(** [str(n)] for an [int] *)
Definition str_int (n : Z) : string := NilZero.string_of_int (Z.to_int n).

(** truth value of a [str]: [bool(s)] *)
Definition truthy (s : string) : bool :=
  match s with EmptyString => false | _ => true end.

End Py.

(** ** Data model *)

(** [WAITING_FOR_CONTENT = 1], the only state [main] registers, and
    [ConversationHandler.END]. *)
Definition WAITING_FOR_CONTENT : Z := 1.
Definition END : Z := -1.

Record ReplyKeyboardMarkup := {
  keyboard : list (list string);
  resize_keyboard : bool;
  one_time_keyboard : bool
}.

Definition TYPE_KEYBOARD : ReplyKeyboardMarkup :=
  {| keyboard := [["Task"]; ["Note"]; ["Bookmark"]];
     resize_keyboard := true;
     one_time_keyboard := false |}.

(** One call of [update.message.reply_text]. *)
Record Reply := {
  text : string;
  reply_markup : option ReplyKeyboardMarkup;
  parse_mode : option string
}.

(** One call of [requests.post(base_url, json={'type': .., 'body': ..},
    headers=..)].  [entry_type] is [None] when [user_data] has no
    ['entry_type']. *)
Record Request := {
  url : string;
  json_type : option string;
  json_body : string;
  headers : gmap string string
}.

(** What [requests.post] does: it returns a response, of which the code
    reads [status_code] and [text], or it raises an exception [e], of which
    the code reads [str(e)]. *)
Inductive Answer :=
| Response (status_code : Z) (response_text : string)
| Raised (str_e : string).

(** The part of the world a handler acts on. *)
Record World := {
  user_data : gmap string string;
  sent : list Reply;
  requests : list Request
}.

(** [context.bot_data]: [main] stores the pair [(base_url, headers)] under
    ['api_config']. *)
Abbreviation BotData := (gmap string (string * gmap string string)).

(** ** The handler monad *)

Definition Bot (A : Type) : Type := World -> A * World.

#[export] Instance Bot_ret : MRet Bot := fun A (a : A) w => (a, w).
#[export] Instance Bot_bind : MBind Bot :=
  fun A B (k : A -> Bot B) (m : Bot A) w => let '(a, w') := m w in k a w'.

(** [await update.message.reply_text(text, reply_markup=.., parse_mode=..)] *)
Definition reply_text (t : string) (markup : option ReplyKeyboardMarkup)
    (mode : option string) : Bot unit :=
  fun w =>
    (tt, {| user_data := user_data w;
            sent := sent w ++ [{| text := t; reply_markup := markup; parse_mode := mode |}];
            requests := requests w |}).

(** [context.user_data.get(key)] *)
Definition user_data_get (key : string) : Bot (option string) :=
  fun w => (user_data w !! key, w).

(** [context.user_data.get(key, fallback)] *)
Definition user_data_get_default (key fallback : string) : Bot string :=
  fun w => (default fallback (user_data w !! key), w).

(** [context.user_data[key] = value] *)
Definition user_data_set (key value : string) : Bot unit :=
  fun w =>
    (tt, {| user_data := <[key := value]> (user_data w);
            sent := sent w;
            requests := requests w |}).

(** [context.user_data.clear()] *)
Definition user_data_clear : Bot unit :=
  fun w => (tt, {| user_data := ∅; sent := sent w; requests := requests w |}).

(** ** The handlers *)

(** [choice_map.get(choice)] with
    [choice_map = {'Task': 'task', 'Note': 'note', 'Bookmark': 'bookmark'}] *)
Definition choice_map : gmap string string :=
  <["Task" := "task"]> (<["Note" := "note"]> (<["Bookmark" := "bookmark"]> ∅)).

Definition get_type_by_choice (choice : string) : option string :=
  choice_map !! choice.

(** [if x:] for [x] a [str] or [None] *)
Definition truthy (x : option string) : bool :=
  match x with
  | Some s => Py.truthy s
  | None => false
  end.

Section Handlers.

(** The network: the answer to a request, which may depend on the requests
    made before it. *)
Variable requests_post : list Request -> Request -> Answer.

(** The submission client.  The [try] catches every [Exception]. *)
Definition post_entry (base_url : string) (hdrs : gmap string string)
    (entry_type : option string) (content : string) : Bot (Z * string) :=
  fun w =>
    let rq := {| url := base_url; json_type := entry_type;
                 json_body := content; headers := hdrs |} in
    let w' := {| user_data := user_data w; sent := sent w;
                 requests := requests w ++ [rq] |} in
    match requests_post (requests w) rq with
    | Response status_code response_text => ((status_code, response_text), w')
    | Raised str_e => ((0, "Network error: " +:+ str_e), w')
    end.

Definition start : Bot Z :=
  reply_text
    ("🚀 *Bucket Bot Ready!*" +:+ Py.LF +:+ Py.LF +:+ "Select entry type:")
    (Some TYPE_KEYBOARD) (Some "Markdown");;
  mret WAITING_FOR_CONTENT.

Definition handle_type_selection (message_text : string) : Bot Z :=
  let choice := message_text in
  let entry_type := get_type_by_choice choice in
  let invalid : Bot Z :=
    reply_text "❌ Invalid selection. Please choose Task, Note, or Bookmark."
      (Some TYPE_KEYBOARD) None;;
    mret WAITING_FOR_CONTENT in
  match entry_type with
  | None => invalid
  | Some et =>
      if negb (Py.truthy et) then invalid
      else
        user_data_set "entry_type" et;;
        user_data_set "type_display" choice;;
        reply_text
          ("✅ Selected: *" +:+ choice +:+ "*" +:+ Py.LF +:+ Py.LF +:+
           "Now enter your " +:+ Py.lower choice +:+ " content:")
          None (Some "Markdown");;
        mret WAITING_FOR_CONTENT
  end.

(** [status_code in [200, 201]] *)
Definition in_200_201 (status_code : Z) : bool :=
  (status_code =? 200) || (status_code =? 201).

(** The two result messages of [handle_content]. *)
Definition posted_text (type_display : string) (status_code : Z)
    (response_text : string) : string :=
  "✅ *" +:+ type_display +:+ " posted successfully!*" +:+ Py.LF +:+ Py.LF +:+
  "Status: " +:+ Py.str_int status_code +:+ Py.LF +:+
  "Response: " +:+ response_text +:+ Py.LF +:+ Py.LF +:+
  "Select next entry type:".

Definition failed_text (type_display : string) (status_code : Z)
    (response_text : string) : string :=
  "❌ *Failed to post " +:+ Py.lower type_display +:+ "*" +:+ Py.LF +:+ Py.LF +:+
  "Status: " +:+ Py.str_int status_code +:+ Py.LF +:+
  "Response: " +:+ response_text +:+ Py.LF +:+ Py.LF +:+
  "Please try again or select a different type:".

Definition handle_content (bot_data : BotData) (message_text : string) : Bot Z :=
  let content := Py.strip message_text in
  entry_type ← user_data_get "entry_type";
  type_display ← user_data_get_default "type_display" "Entry";
  if truthy (get_type_by_choice message_text) then
    handle_type_selection message_text
  else if negb (Py.truthy content) then
    reply_text "❌ Content cannot be empty. Please enter some text:"
      None (Some "Markdown");;
    mret WAITING_FOR_CONTENT
  else
    match bot_data !! "api_config" with
    | None =>
        reply_text "❌ API configuration error. Please restart the bot with /start"
          None (Some "Markdown");;
        mret END
    | Some (base_url, hdrs) =>
        '(status_code, response_text) ← post_entry base_url hdrs entry_type content;
        (if in_200_201 status_code then
           reply_text (posted_text type_display status_code response_text)
             (Some TYPE_KEYBOARD) (Some "Markdown")
         else
           reply_text (failed_text type_display status_code response_text)
             (Some TYPE_KEYBOARD) (Some "Markdown"));;
        user_data_clear;;
        mret WAITING_FOR_CONTENT
    end.

(** [help_command] returns [None]. *)
Definition help_command : Bot unit :=
  reply_text
    ("🤖 *Bucket Bot Help*" +:+ Py.LF +:+ Py.LF +:+
     "1. Select an entry type: Task, Note, or Bookmark" +:+ Py.LF +:+
     "2. Enter your content" +:+ Py.LF +:+
     "3. Bot posts it and shows the result" +:+ Py.LF +:+
     "4. Repeat!" +:+ Py.LF +:+ Py.LF +:+
     "Commands:" +:+ Py.LF +:+
     "/start - Begin using the bot" +:+ Py.LF +:+
     "/help - Show this help message" +:+ Py.LF +:+ Py.LF +:+
     "Ready to post!")
    (Some TYPE_KEYBOARD) (Some "Markdown").

Definition cancel : Bot Z :=
  reply_text "Operation cancelled. Use /start to begin again."
    (Some TYPE_KEYBOARD) None;;
  user_data_clear;;
  mret END.

End Handlers.

(** ** The dispatch configured by [main] *)

(** The updates the bot reacts to: the commands [/start], [/help] and
    [/cancel], and a text message that is not a command (the filter
    [filters.TEXT & ~filters.COMMAND]). *)
Inductive Event :=
| StartCommand
| HelpCommand
| CancelCommand
| TextMessage (message_text : string).

(** One identity (a user in a private chat): the state the
    [ConversationHandler] keeps for it ([None] when no conversation is
    running) and the world its handlers act on. *)
Record Session := {
  conversation : option Z;
  world : World
}.

Definition initial : Session :=
  {| conversation := None;
     world := {| user_data := ∅; sent := []; requests := [] |} |}.

(** [bot_data] as [main] fills it. *)
Definition main_bot_data (api_key : string) : BotData :=
  {[ "api_config" :=
       ("https://vulkan.sumeetsaini.com/well",
        <["X-API-Key" := api_key]> (<["Content-Type" := "application/json"]> ∅)) ]}.

Section Dispatch.

Variable requests_post : list Request -> Request -> Answer.
Variable bot_data : BotData.

(** [entry_points=[CommandHandler('start', start)]] *)
Definition entry_points (ev : Event) : option (Bot Z) :=
  match ev with
  | StartCommand => Some start
  | _ => None
  end.

(** [states={WAITING_FOR_CONTENT: [MessageHandler(.., handle_content)]}] *)
Definition states (state : Z) (ev : Event) : option (Bot Z) :=
  if state =? WAITING_FOR_CONTENT then
    match ev with
    | TextMessage message_text =>
        Some (handle_content requests_post bot_data message_text)
    | _ => None
    end
  else None.

(** [fallbacks=[CommandHandler('cancel', cancel)]] *)
Definition fallbacks (ev : Event) : option (Bot Z) :=
  match ev with
  | CancelCommand => Some cancel
  | _ => None
  end.

(** Which handler of the [ConversationHandler] takes the update: outside
    a conversation only the entry points are tried; inside one, the
    handlers of the current state and then the fallbacks (re-entry is not
    allowed, so [/start] is not tried there). *)
Definition conv_handler (state : option Z) (ev : Event) : option (Bot Z) :=
  match state with
  | None => entry_points ev
  | Some st =>
      match states st ev with
      | Some h => Some h
      | None => fallbacks ev
      end
  end.

(** The value a handler returns becomes the state; [END] closes the
    conversation. *)
Definition update_state (new_state : Z) : option Z :=
  if new_state =? END then None else Some new_state.

(** One update: the [ConversationHandler] is asked first, then the
    [/help] handler; an update no handler takes changes nothing. *)
Definition process (ev : Event) (s : Session) : Session :=
  match conv_handler (conversation s) ev with
  | Some h =>
      let '(new_state, w) := h (world s) in
      {| conversation := update_state new_state; world := w |}
  | None =>
      match ev with
      | HelpCommand =>
          let '(_, w) := help_command (world s) in
          {| conversation := conversation s; world := w |}
      | _ => s
      end
  end.

Definition run (evs : list Event) (s : Session) : Session :=
  fold_left (fun s ev => process ev s) evs s.

End Dispatch.

(** ** The states of the specification

    These definitions follow the specification, not the code.  The code
    has one handler state; the specification tells [AwaitingCategory] from
    [AwaitingContent] by the category stored in the session context
    ([selectedCategory] is ['entry_type'] of [user_data]), and calls [Idle]
    the absence of a conversation. *)
Inductive ConversationState := Idle | AwaitingCategory | AwaitingContent.

Definition selectedCategory (s : Session) : option string :=
  user_data (world s) !! "entry_type".

Definition conversation_state (s : Session) : ConversationState :=
  match conversation s with
  | None => Idle
  | Some _ => if truthy (selectedCategory s) then AwaitingContent else AwaitingCategory
  end.

(** A message carries the category options when its markup is
    [TYPE_KEYBOARD]. *)
Definition carries_options (r : Reply) : Prop :=
  reply_markup r = Some TYPE_KEYBOARD.

(** [needle] occurs in [hay]. *)
Definition occurs_in (needle hay : string) : Prop :=
  exists before after, hay = before +:+ needle +:+ after.

(** The request [handle_content] makes for the text [message_text], the
    pair [post_entry] returns for an answer of the network, and the message
    [handle_content] sends for that pair. *)
Definition request_for (base_url : string) (hdrs : gmap string string)
    (w : World) (message_text : string) : Request :=
  {| url := base_url;
     json_type := user_data w !! "entry_type";
     json_body := Py.strip message_text;
     headers := hdrs |}.

Definition outcome (a : Answer) : Z * string :=
  match a with
  | Response status_code response_text => (status_code, response_text)
  | Raised str_e => (0, "Network error: " +:+ str_e)
  end.

Definition report (w : World) (o : Z * string) : Reply :=
  let type_display := default "Entry" (user_data w !! "type_display") in
  {| text := if in_200_201 o.1 then posted_text type_display o.1 o.2
             else failed_text type_display o.1 o.2;
     reply_markup := Some TYPE_KEYBOARD;
     parse_mode := Some "Markdown" |}.


(** The invariant of the specification: [AwaitingContent] exactly when a
    category is stored. *)
Definition category_invariant (s : Session) : Prop :=
  conversation_state s = AwaitingContent <-> truthy (selectedCategory s) = true.

(** ** Sample networks and sessions *)


Definition refusing : list Request -> Request -> Answer :=
  fun _ _ => Raised "connection refused".

(** The session after [/start] and the choice of [Note]. *)
Definition note_chosen : Session :=
  run refusing (main_bot_data "key") [StartCommand; TextMessage "Note"] initial.

(** ** Start-up: [load_config] and [main]

    A start-up computation prints lines and either returns a value or
    leaves the process through [sys.exit]. *)
Inductive Proc (A : Type) :=
| Returns (printed : list string) (value : A)
| Exits (printed : list string) (code : Z).

Arguments Returns {A} printed value.
Arguments Exits {A} printed code.

(** [os.getenv] is lookup in the environment; [if not x] holds for a
    missing and for an empty variable. *)
Definition load_config (environ : gmap string string) : Proc (string * string) :=
  let bot_token := environ !! "BUCKETBOT_TOKEN" in
  let api_key := environ !! "WELL_API_KEY" in
  let no_token : Proc (string * string) :=
    Exits ["Error: BUCKETBOT_TOKEN environment variable not set"] 1 in
  let no_key : Proc (string * string) :=
    Exits ["Error: WELL_API_KEY environment variable not set"] 1 in
  match bot_token with
  | None => no_token
  | Some token =>
      if negb (Py.truthy token) then no_token
      else
        match api_key with
        | None => no_key
        | Some key =>
            if negb (Py.truthy key) then no_key
            else Returns [] (token, key)
        end
  end.

(** [main] up to [run_polling]: the token given to the application builder
    and the [bot_data] the handlers will see.  The calls into the library
    (building the application, registering the handlers) are taken to
    succeed. *)
Definition main_setup (environ : gmap string string) : Proc (string * BotData) :=
  match load_config environ with
  | Exits printed code => Exits printed code
  | Returns printed (bot_token, api_key) =>
      Returns (printed ++ ["🚀 Starting Bucket Bot..."])
        (bot_token, main_bot_data api_key)
  end.

(** [main] with the updates that polling delivers for one identity: the
    session after they have been handled. *)
Definition main (requests_post : list Request -> Request -> Answer)
    (environ : gmap string string) (updates : list Event) : Proc Session :=
  match main_setup environ with
  | Exits printed code => Exits printed code
  | Returns printed (_, bot_data) =>
      Returns printed (run requests_post bot_data updates initial)
  end.

(** ** Shapes used in the statements *)

(** The text has no white space at either end. *)
Definition no_outer_space (s : string) : Prop :=
  (forall c r, s = String c r -> Py.isspace c = false) /\
  (forall r c, s = r +:+ String c EmptyString -> Py.isspace c = false).

(** A session context as the handlers leave it: empty, or a label with its
    machine value. *)
Definition context_ok (ud : gmap string string) : Prop :=
  ud = ∅ \/
  exists label value : string,
    get_type_by_choice label = Some value /\
    ud = <["type_display" := label]> (<["entry_type" := value]> ∅).

(** [l1] is [l2] or [l2] with one more element at its end. *)
Definition grows_by_at_most_one {A : Type} (l1 l2 : list A) : Prop :=
  l2 = l1 \/ exists x : A, l2 = l1 ++ [x].

(** The effects one update can have on a session, case by case; [step s ev
    s'] holds of [s' = process ev s] (lemma [process_step]) and serves the
    proofs of what every run keeps. *)
Inductive step (requests_post : list Request -> Request -> Answer)
    (bot_data : BotData) (s : Session) : Event -> Session -> Prop :=
| step_ignored ev :
    step requests_post bot_data s ev s
| step_start :
    conversation s = None ->
    step requests_post bot_data s StartCommand
      {| conversation := Some WAITING_FOR_CONTENT; world := (start (world s)).2 |}
| step_help :
    step requests_post bot_data s HelpCommand
      {| conversation := conversation s; world := (help_command (world s)).2 |}
| step_cancel :
    conversation s <> None ->
    step requests_post bot_data s CancelCommand
      {| conversation := None; world := (cancel (world s)).2 |}
| step_select message_text value :
    conversation s = Some WAITING_FOR_CONTENT ->
    get_type_by_choice message_text = Some value ->
    step requests_post bot_data s (TextMessage message_text)
      {| conversation := Some WAITING_FOR_CONTENT;
         world :=
           {| user_data := <["type_display" := message_text]>
                             (<["entry_type" := value]> (user_data (world s)));
              sent := sent (world s) ++
                [{| text := "✅ Selected: *" +:+ message_text +:+ "*" +:+
                            Py.LF +:+ Py.LF +:+ "Now enter your " +:+
                            Py.lower message_text +:+ " content:";
                    reply_markup := None; parse_mode := Some "Markdown" |}];
              requests := requests (world s) |} |}
| step_empty message_text :
    conversation s = Some WAITING_FOR_CONTENT ->
    truthy (get_type_by_choice message_text) = false ->
    Py.truthy (Py.strip message_text) = false ->
    step requests_post bot_data s (TextMessage message_text)
      {| conversation := Some WAITING_FOR_CONTENT;
         world :=
           {| user_data := user_data (world s);
              sent := sent (world s) ++
                [{| text := "❌ Content cannot be empty. Please enter some text:";
                    reply_markup := None; parse_mode := Some "Markdown" |}];
              requests := requests (world s) |} |}
| step_no_config message_text :
    conversation s = Some WAITING_FOR_CONTENT ->
    truthy (get_type_by_choice message_text) = false ->
    Py.truthy (Py.strip message_text) = true ->
    bot_data !! "api_config" = None ->
    step requests_post bot_data s (TextMessage message_text)
      {| conversation := None;
         world :=
           {| user_data := user_data (world s);
              sent := sent (world s) ++
                [{| text := "❌ API configuration error. Please restart the bot with /start";
                    reply_markup := None; parse_mode := Some "Markdown" |}];
              requests := requests (world s) |} |}
| step_submit message_text base_url hdrs :
    conversation s = Some WAITING_FOR_CONTENT ->
    truthy (get_type_by_choice message_text) = false ->
    Py.truthy (Py.strip message_text) = true ->
    bot_data !! "api_config" = Some (base_url, hdrs) ->
    step requests_post bot_data s (TextMessage message_text)
      {| conversation := Some WAITING_FOR_CONTENT;
         world :=
           {| user_data := ∅;
              sent := sent (world s) ++
                [report (world s)
                   (outcome (requests_post (requests (world s))
                      (request_for base_url hdrs (world s) message_text)))];
              requests := requests (world s) ++
                [request_for base_url hdrs (world s) message_text] |} |}.

(** A request as every run makes it under [bot_data]: to the configured
    address with the configured headers, of no type or of the machine value
    of a label, with a body that is not empty and has no white space around
    it. *)
Definition request_ok (bot_data : BotData) (rq : Request) : Prop :=
  bot_data !! "api_config" = Some (url rq, headers rq) /\
  (json_type rq = None \/
   exists label : string, get_type_by_choice label = json_type rq /\
                          json_type rq <> None) /\
  json_body rq <> EmptyString /\
  no_outer_space (json_body rq).

(** * Properties *)

Ltac bot_unfold :=
  unfold mbind, mret, Bot_bind, Bot_ret, reply_text, user_data_get,
    user_data_get_default, user_data_set, user_data_clear in *.

(** ** Strings *)

Example strip_padded : Py.strip "  buy milk " = "buy milk".
Proof. reflexivity. Qed.

Example strip_blank : Py.strip "   " = "".
Proof. reflexivity. Qed.

Example lower_label : Py.lower "Bookmark" = "bookmark".
Proof. reflexivity. Qed.

Example str_int_201 : Py.str_int 201 = "201".
Proof. reflexivity. Qed.

Example str_int_0 : Py.str_int 0 = "0".
Proof. reflexivity. Qed.

Example padded_label_body : Py.strip " Task " = "Task".
Proof. reflexivity. Qed.


Lemma occurs_in_middle (before needle after : string) :
  occurs_in needle (before +:+ needle +:+ after).
Proof. by exists before, after. Qed.

(** ** The category labels *)

Lemma get_type_by_choice_Some (choice et : string) :
  get_type_by_choice choice = Some et <->
  (choice = "Task" /\ et = "task") \/ (choice = "Note" /\ et = "note") \/
  (choice = "Bookmark" /\ et = "bookmark").
Proof.
  unfold get_type_by_choice, choice_map. split.
  - rewrite !lookup_insert, lookup_empty. intros H.
    repeat case_decide; simplify_eq; auto.
  - intros [[-> ->] | [[-> ->] | [-> ->]]]; reflexivity.
Qed.

Lemma truthy_get_type_by_choice (choice : string) :
  truthy (get_type_by_choice choice) = true <->
  choice = "Task" \/ choice = "Note" \/ choice = "Bookmark".
Proof.
  split.
  - destruct (get_type_by_choice choice) as [et|] eqn:E; [|done].
    apply get_type_by_choice_Some in E.
    destruct E as [[-> _] | [[-> _] | [-> _]]]; auto.
  - intros [-> | [-> | ->]]; reflexivity.
Qed.




(** ** The branches of [handle_content] *)

Section Branches.

Variable requests_post : list Request -> Request -> Answer.
Variable bot_data : BotData.

Lemma post_entry_spec base_url hdrs entry_type content w :
  post_entry requests_post base_url hdrs entry_type content w =
  let rq := {| url := base_url; json_type := entry_type;
               json_body := content; headers := hdrs |} in
  (outcome (requests_post (requests w) rq),
   {| user_data := user_data w; sent := sent w;
      requests := requests w ++ [rq] |}).
Proof. unfold post_entry, outcome. simpl. by destruct (requests_post _ _). Qed.

Lemma handle_content_selection message_text w :
  truthy (get_type_by_choice message_text) = true ->
  handle_content requests_post bot_data message_text w =
  handle_type_selection message_text w.
Proof. intros H. unfold handle_content. bot_unfold. simpl. by rewrite H. Qed.

Lemma handle_content_empty message_text w :
  truthy (get_type_by_choice message_text) = false ->
  Py.truthy (Py.strip message_text) = false ->
  handle_content requests_post bot_data message_text w =
  (WAITING_FOR_CONTENT,
   {| user_data := user_data w;
      sent := sent w ++
        [{| text := "❌ Content cannot be empty. Please enter some text:";
            reply_markup := None; parse_mode := Some "Markdown" |}];
      requests := requests w |}).
Proof. intros H1 H2. unfold handle_content. bot_unfold. simpl. by rewrite H1, H2. Qed.

Lemma handle_content_no_config message_text w :
  truthy (get_type_by_choice message_text) = false ->
  Py.truthy (Py.strip message_text) = true ->
  bot_data !! "api_config" = None ->
  handle_content requests_post bot_data message_text w =
  (END,
   {| user_data := user_data w;
      sent := sent w ++
        [{| text := "❌ API configuration error. Please restart the bot with /start";
            reply_markup := None; parse_mode := Some "Markdown" |}];
      requests := requests w |}).
Proof.
  intros H1 H2 H3. unfold handle_content. bot_unfold. simpl.
  by rewrite H1, H2, H3.
Qed.

Lemma handle_content_submit message_text w base_url hdrs :
  truthy (get_type_by_choice message_text) = false ->
  Py.truthy (Py.strip message_text) = true ->
  bot_data !! "api_config" = Some (base_url, hdrs) ->
  handle_content requests_post bot_data message_text w =
  let rq := request_for base_url hdrs w message_text in
  (WAITING_FOR_CONTENT,
   {| user_data := ∅;
      sent := sent w ++ [report w (outcome (requests_post (requests w) rq))];
      requests := requests w ++ [rq] |}).
Proof.
  intros H1 H2 H3. unfold handle_content. bot_unfold. simpl.
  rewrite H1, H2, H3. simpl. rewrite post_entry_spec. simpl.
  unfold report, request_for.
  destruct (outcome _) as [status_code response_text]. simpl.
  by destruct (in_200_201 status_code).
Qed.

End Branches.

(** ** [handle_type_selection] *)

Lemma handle_type_selection_label (message_text et : string) (w : World) :
  get_type_by_choice message_text = Some et ->
  handle_type_selection message_text w =
  (WAITING_FOR_CONTENT,
   {| user_data := <["type_display" := message_text]> (<["entry_type" := et]> (user_data w));
      sent := sent w ++
        [{| text := "✅ Selected: *" +:+ message_text +:+ "*" +:+ Py.LF +:+ Py.LF +:+
                    "Now enter your " +:+ Py.lower message_text +:+ " content:";
            reply_markup := None; parse_mode := Some "Markdown" |}];
      requests := requests w |}).
Proof.
  intros H. unfold handle_type_selection. rewrite H.
  apply get_type_by_choice_Some in H.
  destruct H as [[-> ->] | [[-> ->] | [-> ->]]]; reflexivity.
Qed.

(** The notice the selection handler has for a text that is no label.
    [handle_content] calls the selection handler only for a label, so this
    branch is never taken from the dispatch of [main]. *)
Lemma handle_type_selection_invalid (message_text : string) (w : World) :
  get_type_by_choice message_text = None ->
  handle_type_selection message_text w =
  (WAITING_FOR_CONTENT,
   {| user_data := user_data w;
      sent := sent w ++
        [{| text := "❌ Invalid selection. Please choose Task, Note, or Bookmark.";
            reply_markup := Some TYPE_KEYBOARD; parse_mode := None |}];
      requests := requests w |}).
Proof. intros H. unfold handle_type_selection. by rewrite H. Qed.

(** ** The result messages *)

Lemma posted_text_neq_failed_text td td' st st' body body' :
  posted_text td st body <> failed_text td' st' body'.
Proof.
  unfold posted_text, failed_text. intros H.
  lazy beta iota delta [String.append] in H. discriminate.
Qed.



(** ** [start] *)

(** [start] sends its message and touches nothing else. *)
Lemma start_keeps_user_data (w : World) :
  user_data (start w).2 = user_data w /\
  sent (start w).2 = sent w ++
    [{| text := "🚀 *Bucket Bot Ready!*" +:+ Py.LF +:+ Py.LF +:+ "Select entry type:";
        reply_markup := Some TYPE_KEYBOARD; parse_mode := Some "Markdown" |}] /\
  requests (start w).2 = requests w.
Proof. repeat split; reflexivity. Qed.

(** ** One step of the dispatch *)

Section Steps.

Variable requests_post : list Request -> Request -> Answer.
Variable bot_data : BotData.

Lemma process_text (message_text : string) (s : Session) :
  conversation s = Some WAITING_FOR_CONTENT ->
  process requests_post bot_data (TextMessage message_text) s =
  {| conversation :=
       update_state (handle_content requests_post bot_data message_text (world s)).1;
     world := (handle_content requests_post bot_data message_text (world s)).2 |}.
Proof.
  intros H. unfold process, conv_handler, states. rewrite H.
  change (WAITING_FOR_CONTENT =? WAITING_FOR_CONTENT) with true. cbv iota.
  by destruct (handle_content _ _ _ _).
Qed.

Lemma process_help (s : Session) :
  process requests_post bot_data HelpCommand s =
  {| conversation := conversation s; world := (help_command (world s)).2 |}.
Proof.
  unfold process, conv_handler, states.
  destruct (conversation s) as [st|]; simpl; [|done].
  by destruct (st =? WAITING_FOR_CONTENT).
Qed.

Lemma process_start_idle (s : Session) :
  conversation s = None ->
  process requests_post bot_data StartCommand s =
  {| conversation := Some WAITING_FOR_CONTENT; world := (start (world s)).2 |}.
Proof. intros H. unfold process, conv_handler. by rewrite H. Qed.

Lemma process_start_active (s : Session) :
  conversation s <> None ->
  process requests_post bot_data StartCommand s = s.
Proof.
  intros H. unfold process, conv_handler, states.
  destruct (conversation s) as [st|]; [|done]. simpl.
  by destruct (st =? WAITING_FOR_CONTENT).
Qed.

Lemma process_cancel_active (s : Session) :
  conversation s <> None ->
  process requests_post bot_data CancelCommand s =
  {| conversation := None; world := (cancel (world s)).2 |}.
Proof.
  intros H. unfold process, conv_handler, states.
  destruct (conversation s) as [st|]; [|done]. simpl.
  by destruct (st =? WAITING_FOR_CONTENT).
Qed.

Lemma process_ignored (ev : Event) (s : Session) :
  conversation s = None -> ev <> StartCommand -> ev <> HelpCommand ->
  process requests_post bot_data ev s = s.
Proof.
  intros H ? ?. unfold process, conv_handler. rewrite H.
  by destruct ev.
Qed.

End Steps.

Example note_chosen_state :
  conversation note_chosen = Some WAITING_FOR_CONTENT /\
  conversation_state note_chosen = AwaitingContent /\
  user_data (world note_chosen) !! "entry_type" = Some "note" /\
  user_data (world note_chosen) !! "type_display" = Some "Note".
Proof. repeat split; reflexivity. Qed.

(** ** The invariant of the specification, with the configuration in place

    The invariant is kept by every event as long as [bot_data] holds
    ['api_config'], which [main] stores before the first event. *)
Lemma category_invariant_alt (s : Session) :
  category_invariant s <->
  (truthy (selectedCategory s) = true -> conversation s <> None).
Proof.
  unfold category_invariant, conversation_state.
  destruct (conversation s) as [st|], (truthy (selectedCategory s));
    intuition congruence.
Qed.

Section Invariant.

Variable requests_post : list Request -> Request -> Answer.
Variable bot_data : BotData.
Hypothesis configured : is_Some (bot_data !! "api_config").

Lemma handle_content_stays (message_text : string) (w : World) :
  (handle_content requests_post bot_data message_text w).1 = WAITING_FOR_CONTENT.
Proof.
  destruct configured as [[base_url hdrs] Hcfg].
  destruct (truthy (get_type_by_choice message_text)) eqn:Hlabel.
  - rewrite (handle_content_selection _ _ _ _ Hlabel).
    destruct (get_type_by_choice message_text) as [et|] eqn:Het; [|done].
    by rewrite (handle_type_selection_label _ _ _ Het).
  - destruct (Py.truthy (Py.strip message_text)) eqn:Hcontent.
    + by rewrite (handle_content_submit _ _ _ _ _ _ Hlabel Hcontent Hcfg).
    + by rewrite (handle_content_empty _ _ _ _ Hlabel Hcontent).
Qed.

Lemma process_keeps_invariant (ev : Event) (s : Session) :
  category_invariant s ->
  category_invariant (process requests_post bot_data ev s).
Proof.
  rewrite !category_invariant_alt. intros Hs.
  destruct (conversation s) as [st|] eqn:Hconv.
  - destruct ev as [| | |message_text].
    + rewrite process_start_active by by rewrite Hconv. by rewrite Hconv.
    + rewrite process_help. simpl. by rewrite Hconv.
    + rewrite process_cancel_active by by rewrite Hconv. done.
    + unfold process, conv_handler, states. rewrite Hconv.
      destruct (st =? WAITING_FOR_CONTENT); simpl.
      * pose proof (handle_content_stays message_text (world s)) as Hret.
        destruct (handle_content _ _ _ _) as [new_state w]. simpl in *.
        by rewrite Hret.
      * by rewrite Hconv.
  - destruct ev as [| | |message_text].
    + by rewrite (process_start_idle _ _ _ Hconv).
    + rewrite process_help. simpl. rewrite Hconv. exact Hs.
    + rewrite process_ignored by done. by rewrite Hconv.
    + rewrite process_ignored by done. by rewrite Hconv.
Qed.

Lemma run_keeps_invariant (evs : list Event) (s : Session) :
  category_invariant s ->
  category_invariant (run requests_post bot_data evs s).
Proof.
  revert s. induction evs as [|ev evs IH]; intros s Hs; [done|].
  simpl. by apply IH, process_keeps_invariant.
Qed.

Lemma invariant_when_configured (evs : list Event) :
  category_invariant (run requests_post bot_data evs initial).
Proof. apply run_keeps_invariant. by apply category_invariant_alt. Qed.

End Invariant.

(** ** The claims *)

(** C1: what the code does with a text that is no label while no category
    is selected.  After [/start] the state is [AwaitingCategory]; the text
    "xyz" is then posted: one request is made, with no type and the body
    "xyz", and the message sent is the report of its outcome, where the
    claim has the invalid-selection notice and no request. *)
Theorem C1_text_without_category_is_posted
    (requests_post : list Request -> Request -> Answer) (api_key : string) :
  let bot_data := main_bot_data api_key in
  let s := process requests_post bot_data StartCommand initial in
  let s' := process requests_post bot_data (TextMessage "xyz") s in
  let rq := {| url := "https://vulkan.sumeetsaini.com/well";
               json_type := None;
               json_body := "xyz";
               headers := <["X-API-Key" := api_key]>
                            (<["Content-Type" := "application/json"]> ∅) |} in
  conversation_state s = AwaitingCategory /\
  requests (world s') = [rq] /\
  sent (world s') =
    sent (world s) ++ [report (world s) (outcome (requests_post [] rq))].
Proof.
  intros bot_data s s' rq.
  assert (Hs : conversation s = Some WAITING_FOR_CONTENT) by reflexivity.
  split; [reflexivity|].
  unfold s'. rewrite (process_text _ _ _ _ Hs).
  rewrite (handle_content_submit _ _ _ _ "https://vulkan.sumeetsaini.com/well"
             (<["X-API-Key" := api_key]> (<["Content-Type" := "application/json"]> ∅)));
    [ | reflexivity | reflexivity | reflexivity ].
  split; reflexivity.
Qed.












(** C7: a text that is exactly one of the labels Task, Note, Bookmark,
    received while a conversation is running, is handled by the selection
    handler before any check of the content: [handle_content] returns what
    [handle_type_selection] returns, no request is made, and the category
    of the label is stored, so the state is [AwaitingContent]. *)
Theorem C7_label_is_a_new_selection
    (requests_post : list Request -> Request -> Answer) (bot_data : BotData)
    (s : Session) (message_text : string) :
  conversation s = Some WAITING_FOR_CONTENT ->
  message_text = "Task" \/ message_text = "Note" \/ message_text = "Bookmark" ->
  let s' := process requests_post bot_data (TextMessage message_text) s in
  handle_content requests_post bot_data message_text (world s) =
    handle_type_selection message_text (world s) /\
  requests (world s') = requests (world s) /\
  selectedCategory s' = get_type_by_choice message_text /\
  user_data (world s') !! "type_display" = Some message_text /\
  conversation_state s' = AwaitingContent.
Proof.
  intros Hconv Hlabel s'. unfold s'.
  rewrite (process_text _ _ _ _ Hconv).
  assert (Ht : truthy (get_type_by_choice message_text) = true)
    by by apply truthy_get_type_by_choice.
  rewrite (handle_content_selection _ _ _ _ Ht).
  assert (Het : get_type_by_choice message_text = Some (Py.lower message_text))
    by (destruct Hlabel as [-> | [-> | ->]]; reflexivity).
  rewrite (handle_type_selection_label _ _ _ Het).
  unfold conversation_state, selectedCategory. simpl.
  rewrite lookup_insert_ne, !lookup_insert_eq, Het by done.
  repeat split.
  destruct Hlabel as [-> | [-> | ->]]; reflexivity.
Qed.

Lemma C7_label_is_a_new_selection_witness :
  let s' := process refusing (main_bot_data "key") (TextMessage "Task")
              note_chosen in
  handle_content refusing (main_bot_data "key") "Task" (world note_chosen) =
    handle_type_selection "Task" (world note_chosen) /\
  requests (world s') = requests (world note_chosen) /\
  selectedCategory s' = get_type_by_choice "Task" /\
  user_data (world s') !! "type_display" = Some "Task" /\
  conversation_state s' = AwaitingContent.
Proof.
  apply (C7_label_is_a_new_selection refusing (main_bot_data "key")
           note_chosen "Task"); [reflexivity | left; reflexivity].
Defined.

(** C8: a HelpCommand changes neither the state nor the session context,
    whatever the current state; after two of them in a row both are still
    what they were before the first. *)
Theorem C8_help_changes_nothing
    (requests_post : list Request -> Request -> Answer) (bot_data : BotData)
    (s : Session) :
  let s1 := process requests_post bot_data HelpCommand s in
  let s2 := process requests_post bot_data HelpCommand s1 in
  (conversation s1 = conversation s /\
   user_data (world s1) = user_data (world s) /\
   conversation_state s1 = conversation_state s /\
   requests (world s1) = requests (world s)) /\
  (conversation s2 = conversation s /\
   user_data (world s2) = user_data (world s) /\
   conversation_state s2 = conversation_state s /\
   requests (world s2) = requests (world s)).
Proof.
  intros s1 s2. unfold s2, s1. rewrite !process_help. repeat split.
Qed.





(** * Further properties of the code *)

(** ** White space and [strip] *)

Lemma append_nonempty (r : string) (c : ascii) : r +:+ String c EmptyString <> EmptyString.
Proof. by destruct r. Qed.

Lemma lstrip_head (s : string) (c : ascii) (r : string) :
  Py.lstrip s = String c r -> Py.isspace c = false.
Proof.
  induction s as [|a s IH]; simpl; [done|].
  destruct (Py.isspace a) eqn:E; [done|]. by intros [= <- <-].
Qed.

Lemma rstrip_head (s : string) (c : ascii) (r : string) :
  Py.rstrip s = String c r -> exists t, s = String c t.
Proof.
  destruct s as [|a s]; simpl; [done|].
  destruct (Py.rstrip s); [destruct (Py.isspace a); [done|] |];
    intros [= <- <-]; eauto.
Qed.

Lemma rstrip_last (s r : string) (c : ascii) :
  Py.rstrip s = r +:+ String c EmptyString -> Py.isspace c = false.
Proof.
  revert r. induction s as [|a s IH]; intros r; simpl.
  - intros H. symmetry in H. by apply append_nonempty in H.
  - destruct (Py.rstrip s) as [|b t] eqn:E.
    + destruct (Py.isspace a) eqn:Ea.
      * intros H. symmetry in H. by apply append_nonempty in H.
      * destruct r as [|x r]; [by intros [= <-]|].
        intros [= _ H]. by destruct (append_nonempty r c).
    + destruct r as [|x r]; [done|].
      intros [= _ H]. by apply (IH r).
Qed.

Lemma strip_no_outer_space (s : string) : no_outer_space (Py.strip s).
Proof.
  unfold Py.strip. split.
  - intros c r H. destruct (rstrip_head _ _ _ H) as [t Ht].
    by apply (lstrip_head s c t).
  - intros r c H. by apply (rstrip_last (Py.lstrip s) r c).
Qed.

Lemma truthy_nonempty (s : string) : Py.truthy s = true <-> s <> EmptyString.
Proof. by destruct s. Qed.


(** ** The session context *)

Lemma select_over (label value label' value' : string) (ud : gmap string string) :
  <["type_display" := label']> (<["entry_type" := value']>
    (<["type_display" := label]> (<["entry_type" := value]> ud))) =
  <["type_display" := label']> (<["entry_type" := value']> ud).
Proof.
  rewrite (insert_insert_ne _ "entry_type" "type_display") by done.
  rewrite (insert_insert_eq _ "type_display").
  by rewrite (insert_insert_eq _ "entry_type").
Qed.

Lemma select_context_ok (label value : string) (ud : gmap string string) :
  get_type_by_choice label = Some value ->
  context_ok ud ->
  context_ok (<["type_display" := label]> (<["entry_type" := value]> ud)).
Proof.
  intros Hl [-> | (l & v & _ & ->)]; right; exists label, value;
    (split; [done|]); [done | apply select_over].
Qed.

Lemma context_ok_entry_type (ud : gmap string string) :
  context_ok ud ->
  ud !! "entry_type" = None \/
  exists label : string, get_type_by_choice label = ud !! "entry_type" /\
                         ud !! "entry_type" <> None.
Proof.
  intros [-> | (l & v & Hl & ->)]; [by left|right].
  exists l. rewrite lookup_insert_ne, lookup_insert_eq by done. by rewrite Hl.
Qed.

(** ** Every update is one of the steps *)

Lemma label_has_value (message_text value : string) :
  get_type_by_choice message_text = Some value ->
  truthy (get_type_by_choice message_text) = true.
Proof.
  intros H. apply truthy_get_type_by_choice.
  apply get_type_by_choice_Some in H.
  destruct H as [[-> _] | [[-> _] | [-> _]]]; auto.
Qed.

Lemma process_label (requests_post : list Request -> Request -> Answer)
    (bot_data : BotData) (message_text value : string) (s : Session) :
  conversation s = Some WAITING_FOR_CONTENT ->
  get_type_by_choice message_text = Some value ->
  process requests_post bot_data (TextMessage message_text) s =
  {| conversation := Some WAITING_FOR_CONTENT;
     world :=
       {| user_data := <["type_display" := message_text]>
                         (<["entry_type" := value]> (user_data (world s)));
          sent := sent (world s) ++
            [{| text := "✅ Selected: *" +:+ message_text +:+ "*" +:+ Py.LF +:+ Py.LF +:+
                        "Now enter your " +:+ Py.lower message_text +:+ " content:";
                reply_markup := None; parse_mode := Some "Markdown" |}];
          requests := requests (world s) |} |}.
Proof.
  intros Hconv Hv. rewrite (process_text _ _ _ _ Hconv).
  rewrite (handle_content_selection _ _ _ _ (label_has_value _ _ Hv)).
  by rewrite (handle_type_selection_label _ _ _ Hv).
Qed.

Lemma process_step (requests_post : list Request -> Request -> Answer)
    (bot_data : BotData) (ev : Event) (s : Session) :
  step requests_post bot_data s ev (process requests_post bot_data ev s).
Proof.
  destruct (conversation s) as [st|] eqn:Hconv.
  - destruct ev as [| | |message_text].
    + rewrite process_start_active by by rewrite Hconv. constructor.
    + rewrite process_help. constructor.
    + rewrite process_cancel_active by by rewrite Hconv.
      constructor. by rewrite Hconv.
    + destruct (decide (st = WAITING_FOR_CONTENT)) as [-> | Hst].
      * rewrite (process_text _ _ _ _ Hconv).
        destruct (truthy (get_type_by_choice message_text)) eqn:Hlabel.
        { destruct (get_type_by_choice message_text) as [value|] eqn:Hv; [|done].
          rewrite <- (process_text _ _ _ _ Hconv).
          rewrite (process_label _ _ _ _ _ Hconv Hv).
          by apply step_select. }
        destruct (Py.truthy (Py.strip message_text)) eqn:Hcontent.
        { destruct (bot_data !! "api_config") as [[base_url hdrs]|] eqn:Hcfg.
          - rewrite (handle_content_submit _ _ _ _ _ _ Hlabel Hcontent Hcfg).
            by apply step_submit.
          - rewrite (handle_content_no_config _ _ _ _ Hlabel Hcontent Hcfg).
            by apply step_no_config. }
        rewrite (handle_content_empty _ _ _ _ Hlabel Hcontent).
        by apply step_empty.
      * replace (process requests_post bot_data (TextMessage message_text) s)
          with s; [constructor|].
        unfold process, conv_handler, states. rewrite Hconv.
        apply Z.eqb_neq in Hst. by rewrite Hst.
  - destruct ev as [| | |message_text].
    + rewrite (process_start_idle _ _ _ Hconv). by constructor.
    + rewrite process_help. constructor.
    + rewrite process_ignored by done. constructor.
    + rewrite process_ignored by done. constructor.
Qed.

Lemma run_keeps (requests_post : list Request -> Request -> Answer)
    (bot_data : BotData) (P : Session -> Prop) :
  (forall ev s, P s -> P (process requests_post bot_data ev s)) ->
  forall evs s, P s -> P (run requests_post bot_data evs s).
Proof.
  intros Hstep evs. induction evs as [|ev evs IH]; intros s Hs; [done|].
  simpl. by apply IH, Hstep.
Qed.

(** ** Start-up *)

Lemma load_config_returns (environ : gmap string string)
    (printed : list string) (bot_token api_key : string) :
  load_config environ = Returns printed (bot_token, api_key) <->
  printed = [] /\
  environ !! "BUCKETBOT_TOKEN" = Some bot_token /\ bot_token <> EmptyString /\
  environ !! "WELL_API_KEY" = Some api_key /\ api_key <> EmptyString.
Proof.
  unfold load_config. split.
  - destruct (environ !! "BUCKETBOT_TOKEN") as [[|c t]|]; simpl; try done.
    destruct (environ !! "WELL_API_KEY") as [[|d k]|]; simpl; try done.
    by intros [= <- <- <-].
  - by intros (-> & -> & Ht & -> & Hk); destruct bot_token, api_key.
Qed.

Lemma load_config_exits (environ : gmap string string)
    (printed : list string) (code : Z) :
  load_config environ = Exits printed code ->
  code = 1 /\ length printed = 1%nat.
Proof.
  unfold load_config.
  destruct (environ !! "BUCKETBOT_TOKEN") as [[|c t]|]; simpl;
    try by intros [= <- <-].
  destruct (environ !! "WELL_API_KEY") as [[|d k]|]; simpl;
    by intros [= <- <-].
Qed.

(** X1: [load_config] returns the pair of the token and the key exactly
    when both variables are set to non-empty texts, and then it prints
    nothing. *)
Theorem X1_load_config_returns_iff (environ : gmap string string)
    (printed : list string) (bot_token api_key : string) :
  load_config environ = Returns printed (bot_token, api_key) <->
  printed = [] /\
  environ !! "BUCKETBOT_TOKEN" = Some bot_token /\ bot_token <> EmptyString /\
  environ !! "WELL_API_KEY" = Some api_key /\ api_key <> EmptyString.
Proof. apply load_config_returns. Qed.

(** X2: in every other case [load_config] prints one line and leaves with
    the status 1; the token is looked at first, so the line names the key
    only when the token is there. *)
Theorem X2_load_config_exit_cases (environ : gmap string string) :
  (exists bot_token api_key : string,
     load_config environ = Returns [] (bot_token, api_key)) \/
  (load_config environ =
     Exits ["Error: BUCKETBOT_TOKEN environment variable not set"] 1 /\
   truthy (environ !! "BUCKETBOT_TOKEN") = false) \/
  (load_config environ =
     Exits ["Error: WELL_API_KEY environment variable not set"] 1 /\
   truthy (environ !! "BUCKETBOT_TOKEN") = true /\
   truthy (environ !! "WELL_API_KEY") = false).
Proof.
  unfold load_config.
  destruct (environ !! "BUCKETBOT_TOKEN") as [t|]; [|by right; left].
  destruct t as [|c t]; [by right; left|].
  destruct (environ !! "WELL_API_KEY") as [k|]; [|by right; right].
  destruct k as [|d k]; [by right; right|].
  left. by eexists _, _.
Qed.

(** ** Labels *)

(** X3: the texts [get_type_by_choice] accepts are exactly the buttons of
    [TYPE_KEYBOARD], each on a row of its own. *)
Theorem X3_labels_are_the_keyboard_buttons (choice : string) :
  truthy (get_type_by_choice choice) = true <->
  [choice] ∈ keyboard TYPE_KEYBOARD.
Proof.
  rewrite truthy_get_type_by_choice. simpl.
  rewrite !elem_of_cons, elem_of_nil. split.
  - intros [-> | [-> | ->]]; auto.
  - intros [[= ->] | [[= ->] | [[= ->] | []]]]; auto.
Qed.

(** X4: the machine value of a label is the label in lower case; two
    labels never share a machine value; and a machine value is not itself
    a label, so a typed machine value is content. *)
Theorem X4_machine_values (choice choice' value : string) :
  get_type_by_choice choice = Some value ->
  value = Py.lower choice /\
  (get_type_by_choice choice' = Some value -> choice' = choice) /\
  get_type_by_choice value = None.
Proof.
  intros H. apply get_type_by_choice_Some in H.
  split; [|split].
  - destruct H as [[-> ->] | [[-> ->] | [-> ->]]]; reflexivity.
  - intros H'. apply get_type_by_choice_Some in H'.
    destruct H as [[-> ->] | [[-> ->] | [-> ->]]];
      destruct H' as [[-> ?] | [[-> ?] | [-> ?]]]; done.
  - destruct H as [[_ ->] | [[_ ->] | [_ ->]]]; reflexivity.
Qed.

Lemma X4_machine_values_witness :
  "note" = Py.lower "Note" /\
  (get_type_by_choice "Note" = Some "note" -> "Note" = "Note") /\
  get_type_by_choice "note" = None.
Proof. apply (X4_machine_values "Note" "Note" "note"). reflexivity. Defined.

(** ** Single updates *)



(** X6: [/cancel] in a running conversation ends it, empties the session
    context, sends the cancellation message with the options and makes no
    request; [/cancel] outside a conversation does nothing. *)
Theorem X6_cancel
    (requests_post : list Request -> Request -> Answer) (bot_data : BotData)
    (s : Session) :
  process requests_post bot_data CancelCommand s =
  match conversation s with
  | None => s
  | Some _ =>
      {| conversation := None;
         world :=
           {| user_data := ∅;
              sent := sent (world s) ++
                [{| text := "Operation cancelled. Use /start to begin again.";
                    reply_markup := Some TYPE_KEYBOARD; parse_mode := None |}];
              requests := requests (world s) |} |}
  end.
Proof.
  destruct (conversation s) as [st|] eqn:Hconv.
  - rewrite process_cancel_active by by rewrite Hconv. reflexivity.
  - by rewrite process_ignored.
Qed.

(** X7: as long as no [/start] and no [/help] arrives, a session without a
    conversation stays exactly as it is: texts and [/cancel] are dropped
    without an answer. *)
Theorem X7_nothing_before_start
    (requests_post : list Request -> Request -> Answer) (bot_data : BotData)
    (evs : list Event) (s : Session) :
  conversation s = None ->
  Forall (fun ev => ev <> StartCommand /\ ev <> HelpCommand) evs ->
  run requests_post bot_data evs s = s.
Proof.
  intros Hconv Hevs. induction Hevs as [|ev evs [H1 H2] _ IH]; [done|].
  simpl. by rewrite process_ignored.
Qed.

Lemma X7_nothing_before_start_witness :
  run refusing (main_bot_data "key")
    [TextMessage "Task"; TextMessage "buy milk"; CancelCommand] initial = initial.
Proof.
  apply (X7_nothing_before_start refusing (main_bot_data "key")
           [TextMessage "Task"; TextMessage "buy milk"; CancelCommand] initial);
    [reflexivity | repeat constructor; discriminate].
Defined.

(** ** Updates in sequence *)

(** X8: [/cancel] followed by [/start] is the reset that works from inside
    a conversation: whatever was selected, the conversation is running
    again with an empty context ([AwaitingCategory]), two messages were
    sent and no request was made. *)
Theorem X8_cancel_then_start_resets
    (requests_post : list Request -> Request -> Answer) (bot_data : BotData)
    (s : Session) :
  conversation s <> None ->
  let s' := run requests_post bot_data [CancelCommand; StartCommand] s in
  conversation s' = Some WAITING_FOR_CONTENT /\
  user_data (world s') = ∅ /\
  conversation_state s' = AwaitingCategory /\
  (exists r1 r2 : Reply,
     sent (world s') = sent (world s) ++ [r1; r2] /\
     carries_options r1 /\ carries_options r2) /\
  requests (world s') = requests (world s).
Proof.
  intros Hconv s'. unfold s'. simpl.
  rewrite (process_cancel_active _ _ _ Hconv).
  rewrite process_start_idle by done. simpl.
  repeat split. eexists _, _. rewrite <- app_assoc. repeat split.
Qed.

Lemma X8_cancel_then_start_resets_witness :
  let s' := run refusing (main_bot_data "key") [CancelCommand; StartCommand]
              note_chosen in
  conversation s' = Some WAITING_FOR_CONTENT /\
  user_data (world s') = ∅ /\
  conversation_state s' = AwaitingCategory /\
  (exists r1 r2 : Reply,
     sent (world s') = sent (world note_chosen) ++ [r1; r2] /\
     carries_options r1 /\ carries_options r2) /\
  requests (world s') = requests (world note_chosen).
Proof.
  apply (X8_cancel_then_start_resets refusing (main_bot_data "key") note_chosen).
  discriminate.
Defined.

(** X9: the last selection wins.  After two labels in a row the session
    context is what the second label alone would have left, and no request
    was made for the first. *)
Theorem X9_last_selection_wins
    (requests_post : list Request -> Request -> Answer) (bot_data : BotData)
    (s : Session) (first second : string) :
  conversation s = Some WAITING_FOR_CONTENT ->
  truthy (get_type_by_choice first) = true ->
  truthy (get_type_by_choice second) = true ->
  let s2 := run requests_post bot_data [TextMessage first; TextMessage second] s in
  let s' := process requests_post bot_data (TextMessage second) s in
  user_data (world s2) = user_data (world s') /\
  conversation s2 = conversation s' /\
  selectedCategory s2 = get_type_by_choice second /\
  requests (world s2) = requests (world s).
Proof.
  intros Hconv H1 H2 s2 s'. unfold s2, s'. simpl.
  destruct (get_type_by_choice first) as [v1|] eqn:Hv1; [|done].
  destruct (get_type_by_choice second) as [v2|] eqn:Hv2; [|done].
  rewrite (process_label _ _ _ _ _ Hconv Hv1).
  rewrite (process_label _ _ second v2) by done.
  rewrite (process_label _ _ _ _ _ Hconv Hv2).
  unfold selectedCategory. simpl. rewrite select_over.
  rewrite lookup_insert_ne, lookup_insert_eq by done. done.
Qed.

Lemma X9_last_selection_wins_witness :
  let s2 := run refusing (main_bot_data "key")
              [TextMessage "Task"; TextMessage "Bookmark"] note_chosen in
  let s' := process refusing (main_bot_data "key") (TextMessage "Bookmark")
              note_chosen in
  user_data (world s2) = user_data (world s') /\
  conversation s2 = conversation s' /\
  selectedCategory s2 = get_type_by_choice "Bookmark" /\
  requests (world s2) = requests (world note_chosen).
Proof.
  apply (X9_last_selection_wins refusing (main_bot_data "key") note_chosen
           "Task" "Bookmark"); reflexivity.
Defined.



(** ** What every update and every run keeps *)

(** X11: one update sends at most one message and makes at most one
    request, and the earlier messages and requests stay as they were; when
    a request is made, a message carrying the options is sent with it and
    the session context is empty afterwards. *)
Theorem X11_one_update_one_answer
    (requests_post : list Request -> Request -> Answer) (bot_data : BotData)
    (ev : Event) (s : Session) :
  let s' := process requests_post bot_data ev s in
  grows_by_at_most_one (sent (world s)) (sent (world s')) /\
  (requests (world s') = requests (world s) \/
   exists (rq : Request) (r : Reply),
     requests (world s') = requests (world s) ++ [rq] /\
     sent (world s') = sent (world s) ++ [r] /\
     carries_options r /\
     user_data (world s') = ∅).
Proof.
  intros s'. unfold s', grows_by_at_most_one.
  destruct (process_step requests_post bot_data ev s); simpl; eauto.
  split; [eauto|]. right. eexists _, _. repeat split.
Qed.

(** X12: in every run from the initial session, with or without a
    configuration, the handler state is absent or [WAITING_FOR_CONTENT],
    and the session context is empty or holds exactly a label under
    ['type_display'] and its machine value under ['entry_type']. *)
Theorem X12_sessions_of_a_run
    (requests_post : list Request -> Request -> Answer) (bot_data : BotData)
    (evs : list Event) :
  let s := run requests_post bot_data evs initial in
  (conversation s = None \/ conversation s = Some WAITING_FOR_CONTENT) /\
  context_ok (user_data (world s)).
Proof.
  apply (run_keeps requests_post bot_data
           (fun s => (conversation s = None \/
                      conversation s = Some WAITING_FOR_CONTENT) /\
                     context_ok (user_data (world s)))).
  - intros ev s [Hc Hud].
    destruct (process_step requests_post bot_data ev s); simpl; auto.
    + split; [auto|]. by left.
    + split; [auto|]. by apply select_context_ok.
    + split; [auto|]. by left.
  - split; left; reflexivity.
Qed.

Lemma request_ok_submit (bot_data : BotData) (w : World)
    (message_text base_url : string) (hdrs : gmap string string) :
  context_ok (user_data w) ->
  Py.truthy (Py.strip message_text) = true ->
  bot_data !! "api_config" = Some (base_url, hdrs) ->
  request_ok bot_data (request_for base_url hdrs w message_text).
Proof.
  intros Hud Hcontent Hcfg. unfold request_ok, request_for. simpl.
  split; [done|]. split; [by apply context_ok_entry_type|].
  split; [by apply truthy_nonempty | apply strip_no_outer_space].
Qed.

Lemma run_requests_ok
    (requests_post : list Request -> Request -> Answer) (bot_data : BotData)
    (evs : list Event) :
  Forall (request_ok bot_data)
    (requests (world (run requests_post bot_data evs initial))).
Proof.
  cut (context_ok (user_data (world (run requests_post bot_data evs initial))) /\
       Forall (request_ok bot_data)
         (requests (world (run requests_post bot_data evs initial))));
    [by intros [_ H]|].
  apply (run_keeps requests_post bot_data
           (fun s => context_ok (user_data (world s)) /\
                     Forall (request_ok bot_data) (requests (world s)))).
  - intros ev s [Hud Hrq].
    destruct (process_step requests_post bot_data ev s); simpl; auto.
    + split; [by left | done].
    + split; [by apply select_context_ok | done].
    + split; [by left|]. apply Forall_app. split; [done|].
      apply Forall_singleton. by apply request_ok_submit.
  - split; [by left | constructor].
Qed.


(** ** With the configuration in place *)

(** X14: with ['api_config'] in [bot_data], a running conversation is
    ended by [/cancel] and by nothing else: after any other update it is
    still in [WAITING_FOR_CONTENT]. *)
Theorem X14_only_cancel_ends
    (requests_post : list Request -> Request -> Answer) (bot_data : BotData)
    (ev : Event) (s : Session) :
  is_Some (bot_data !! "api_config") ->
  conversation s = Some WAITING_FOR_CONTENT ->
  ev <> CancelCommand ->
  conversation (process requests_post bot_data ev s) = Some WAITING_FOR_CONTENT.
Proof.
  intros [cfg Hcfg] Hconv. 
  destruct (process_step requests_post bot_data ev s); simpl; try done.
  congruence.
Qed.

Lemma X14_only_cancel_ends_witness :
  conversation (process refusing (main_bot_data "key") (TextMessage "buy milk")
                  note_chosen) = Some WAITING_FOR_CONTENT.
Proof.
  apply (X14_only_cancel_ends refusing (main_bot_data "key")
           (TextMessage "buy milk") note_chosen);
    [by eexists | reflexivity | discriminate].
Defined.

Lemma run_context_needs_conversation
    (requests_post : list Request -> Request -> Answer) (bot_data : BotData)
    (evs : list Event) :
  is_Some (bot_data !! "api_config") ->
  let s := run requests_post bot_data evs initial in
  conversation s = Some WAITING_FOR_CONTENT \/
  (conversation s = None /\ user_data (world s) = ∅).
Proof.
  intros [cfg Hcfg].
  apply (run_keeps requests_post bot_data
           (fun s => conversation s = Some WAITING_FOR_CONTENT \/
                     (conversation s = None /\ user_data (world s) = ∅))).
  - intros ev s Hs.
    destruct (process_step requests_post bot_data ev s); simpl; auto.
    congruence.
  - by right.
Qed.

(** X15: with ['api_config'] in [bot_data], in every run from the initial
    session a non-empty session context is found only in a running
    conversation: once the conversation is over, nothing of an earlier
    selection is left. *)
Theorem X15_context_only_in_conversation
    (requests_post : list Request -> Request -> Answer) (bot_data : BotData)
    (evs : list Event) :
  is_Some (bot_data !! "api_config") ->
  let s := run requests_post bot_data evs initial in
  user_data (world s) <> ∅ ->
  conversation s = Some WAITING_FOR_CONTENT.
Proof.
  intros Hcfg s Hud.
  destruct (run_context_needs_conversation requests_post bot_data evs Hcfg)
    as [H | [_ H]]; done.
Qed.

Lemma X15_context_only_in_conversation_witness :
  conversation (run refusing (main_bot_data "key")
                  [StartCommand; TextMessage "Note"] initial)
  = Some WAITING_FOR_CONTENT.
Proof.
  apply (X15_context_only_in_conversation refusing (main_bot_data "key")
           [StartCommand; TextMessage "Note"]); [by eexists|].
  intros H. apply (f_equal (fun m : gmap string string => m !! "entry_type")) in H.
  discriminate.
Defined.

(** ** Messages that are never sent *)

Lemma report_text_cases (w : World) (o : Z * string) :
  text (report w o) =
    posted_text (default "Entry" (user_data w !! "type_display")) o.1 o.2 \/
  text (report w o) =
    failed_text (default "Entry" (user_data w !! "type_display")) o.1 o.2.
Proof. unfold report. simpl. destruct (in_200_201 o.1); auto. Qed.

Lemma run_never_invalid_selection
    (requests_post : list Request -> Request -> Answer) (bot_data : BotData)
    (evs : list Event) :
  Forall (fun r => text r <> "❌ Invalid selection. Please choose Task, Note, or Bookmark.")
    (sent (world (run requests_post bot_data evs initial))).
Proof.
  apply (run_keeps requests_post bot_data
           (fun s => Forall (fun r => text r <>
                       "❌ Invalid selection. Please choose Task, Note, or Bookmark.")
                     (sent (world s)))); [|constructor].
  intros ev s Hs.
  destruct (process_step requests_post bot_data ev s); simpl; auto;
    apply Forall_app; (split; [done|]); apply Forall_singleton; try done.
  destruct (report_text_cases (world s)
              (outcome (requests_post (requests (world s))
                 (request_for base_url hdrs (world s) message_text))))
    as [-> | ->]; done.
Qed.

(** X16: no run from the initial session ever sends the invalid-selection
    notice of [handle_type_selection]: [handle_content] hands over to that
    handler only texts that are labels. *)
Theorem X16_invalid_selection_is_never_sent
    (requests_post : list Request -> Request -> Answer) (bot_data : BotData)
    (evs : list Event) :
  Forall (fun r => text r <> "❌ Invalid selection. Please choose Task, Note, or Bookmark.")
    (sent (world (run requests_post bot_data evs initial))).
Proof. apply run_never_invalid_selection. Qed.

Lemma run_never_config_error
    (requests_post : list Request -> Request -> Answer) (bot_data : BotData)
    (evs : list Event) :
  is_Some (bot_data !! "api_config") ->
  Forall (fun r => text r <>
            "❌ API configuration error. Please restart the bot with /start")
    (sent (world (run requests_post bot_data evs initial))).
Proof.
  intros [cfg Hcfg].
  apply (run_keeps requests_post bot_data
           (fun s => Forall (fun r => text r <>
                       "❌ API configuration error. Please restart the bot with /start")
                     (sent (world s)))); [|constructor].
  intros ev s Hs.
  destruct (process_step requests_post bot_data ev s); simpl; auto;
    try congruence;
    apply Forall_app; (split; [done|]); apply Forall_singleton; try done.
  destruct (report_text_cases (world s)
              (outcome (requests_post (requests (world s))
                 (request_for base_url hdrs (world s) message_text))))
    as [-> | ->]; done.
Qed.

(** ** [main] *)

(** X17: [main] either leaves with the status 1 after one printed line,
    before any update is handled, or it prints the start line and handles
    the updates with the key of the environment: every request then goes to
    the fixed address with that key under [X-API-Key] and the JSON content
    type, and the configuration-error message is never sent. *)
Theorem X17_main
    (requests_post : list Request -> Request -> Answer)
    (environ : gmap string string) (updates : list Event) :
  match main requests_post environ updates with
  | Exits printed code => code = 1 /\ length printed = 1%nat
  | Returns printed s =>
      printed = ["🚀 Starting Bucket Bot..."] /\
      Forall (fun rq =>
                url rq = "https://vulkan.sumeetsaini.com/well" /\
                headers rq !! "X-API-Key" = environ !! "WELL_API_KEY" /\
                headers rq !! "Content-Type" = Some "application/json")
        (requests (world s)) /\
      Forall (fun r => text r <>
                "❌ API configuration error. Please restart the bot with /start")
        (sent (world s))
  end.
Proof.
  unfold main, main_setup.
  destruct (load_config environ) as [printed [bot_token api_key] | printed code] eqn:E.
  - apply load_config_returns in E. destruct E as (-> & _ & _ & Hkey & _).
    split; [done|]. split.
    + eapply Forall_impl; [apply run_requests_ok|].
      intros rq (Hcfg & _). unfold main_bot_data in Hcfg.
      rewrite lookup_singleton_eq in Hcfg. injection Hcfg as <- <-.
      rewrite Hkey. by rewrite lookup_insert_eq, lookup_insert_ne, lookup_insert_eq.
    + apply run_never_config_error. unfold main_bot_data.
      rewrite lookup_singleton_eq. by eexists.
  - by apply load_config_exits in E.
Qed.

(** ** When the remote API is called, and when a text is answered *)



(** X19: in a running conversation every text message is answered with
    exactly one message, whatever the text, the context, the configuration
    and the network. *)
Theorem X19_every_text_is_answered
    (requests_post : list Request -> Request -> Answer) (bot_data : BotData)
    (s : Session) (message_text : string) :
  conversation s = Some WAITING_FOR_CONTENT ->
  exists r : Reply,
    sent (world (process requests_post bot_data (TextMessage message_text) s))
    = sent (world s) ++ [r].
Proof.
  intros Hconv. rewrite (process_text _ _ _ _ Hconv).
  destruct (truthy (get_type_by_choice message_text)) eqn:Hlabel.
  - rewrite (handle_content_selection _ _ _ _ Hlabel).
    destruct (get_type_by_choice message_text) as [value|] eqn:Hv; [|done].
    rewrite (handle_type_selection_label _ _ _ Hv). by eexists.
  - destruct (Py.truthy (Py.strip message_text)) eqn:Hcontent.
    + destruct (bot_data !! "api_config") as [[base_url hdrs]|] eqn:Hcfg.
      * rewrite (handle_content_submit _ _ _ _ _ _ Hlabel Hcontent Hcfg).
        by eexists.
      * rewrite (handle_content_no_config _ _ _ _ Hlabel Hcontent Hcfg).
        by eexists.
    + rewrite (handle_content_empty _ _ _ _ Hlabel Hcontent). by eexists.
Qed.

Lemma X19_every_text_is_answered_witness :
  exists r : Reply,
    sent (world (process refusing (main_bot_data "key") (TextMessage "buy milk")
                   note_chosen))
    = sent (world note_chosen) ++ [r].
Proof.
  apply (X19_every_text_is_answered refusing (main_bot_data "key") note_chosen
           "buy milk"). reflexivity.
Defined.
